(** * python_example.py: the environment reporter

    A shallow embedding of [src/python_example.py] (the function [main] and
    the module-level guard) and the properties of its output.

    The script reads a handful of facts from the running interpreter
    (attributes of the [sys] module, [os.getcwd()], the module globals
    [__file__] and [__name__]) and prints them.  Reads can fail (a missing
    attribute raises [AttributeError], a missing global raises [NameError],
    [os.getcwd()] raises [OSError] when the directory is gone), so the code is
    embedded in a state-and-exception monad over an explicit process state. *)

From Stdlib Require Import Ascii.
From stdpp Require Import gmap strings list fin_maps.

(** ** The process state *)

Inductive Exn : Type :=
| AttributeError (obj attr : string)
| NameError (name : string)
| OSError.

(** [sys_attrs] is the attribute dictionary of the [sys] module, [globals]
    the globals of the script's module.  [cwd] is what [os.getcwd()] would
    return ([None]: the call raises).  [environ], [files] and [sent] stand
    for the environment variables, the file system and the network traffic
    of the process.  [stdout] holds the text of each [print] call, oldest
    first. *)
Record World : Type := mkWorld {
  sys_attrs : gmap string string;
  globals : gmap string string;
  cwd : option string;
  environ : gmap string string;
  files : gmap string string;
  sent : list string;
  stdout : list string;
}.

Definition write_stdout (s : string) (w : World) : World :=
  {| sys_attrs := sys_attrs w; globals := globals w; cwd := cwd w;
     environ := environ w; files := files w; sent := sent w;
     stdout := stdout w ++ [s] |}.

(** The bytes on the stream: [print] terminates each text with a newline. *)
Definition newline : string := String (ascii_of_nat 10) EmptyString.

Definition stdout_bytes (out : list string) : string :=
  foldr (λ s rest, s +:+ newline +:+ rest) "" out.

(** ** The monad *)

Definition M (A : Type) : Type := World → World * (Exn + A).

Definition raise {A : Type} (e : Exn) : M A := λ w, (w, inl e).

#[global] Instance M_ret : MRet M := λ A a w, (w, inr a).

#[global] Instance M_bind : MBind M := λ A B k m w,
  match m w with
  | (w', inl e) => (w', inl e)
  | (w', inr a) => k a w'
  end.

(** ** The primitives the script calls *)

(** [print(s)]: the text goes to the end of [stdout]; the stream is taken
    to accept every text. *)
Definition print (s : string) : M unit := λ w, (write_stdout s w, inr ()).

(** [hasattr(sys, a)] *)
Definition hasattr_sys (a : string) : M bool := λ w,
  (w, inr (bool_decide (is_Some (sys_attrs w !! a)))).

(** [sys.a] *)
Definition getattr_sys (a : string) : M string := λ w,
  match sys_attrs w !! a with
  | Some v => (w, inr v)
  | None => (w, inl (AttributeError "sys" a))
  end.

(** [os.getcwd()] *)
Definition getcwd : M string := λ w,
  match cwd w with
  | Some d => (w, inr d)
  | None => (w, inl OSError)
  end.

(** A read of the module global [n]. *)
Definition global (n : string) : M string := λ w,
  match globals w !! n with
  | Some v => (w, inr v)
  | None => (w, inl (NameError n))
  end.

(** ** Strings *)

(** [s.split(sep)] for a separator of one character: the pieces of [s]
    between the occurrences of [sep]; never empty. *)
Fixpoint str_split (sep : ascii) (s : string) : list string :=
  match s with
  | EmptyString => [EmptyString]
  | String c s' =>
      if Ascii.eqb c sep then EmptyString :: str_split sep s'
      else match str_split sep s' with
           | x :: xs => String c x :: xs
           | [] => [String c EmptyString]
           end
  end.

(** [c in s] *)
Fixpoint has_char (c : ascii) (s : string) : bool :=
  match s with
  | EmptyString => false
  | String c' s' => Ascii.eqb c' c || has_char c s'
  end.

(** ** pathlib: pure POSIX paths

    [Path(s)] parses [s] into a root and the list of its components, with
    the rules of [PurePosixPath] (separator [/], no drive); [.parent] and
    [str] work on the parsed form and never look at the file system. *)

Module pathlib.

Definition sep : ascii := "/"%char.

(** [s.lstrip(sep)] *)
Fixpoint lstrip (s : string) : string :=
  match s with
  | String c s' => if Ascii.eqb c sep then lstrip s' else s
  | EmptyString => EmptyString
  end.

Record PurePath : Type := mkPath { root : string; tail : list string }.

(** [splitroot]: exactly two leading slashes are kept as the root, any
    other number of them is one slash. *)
Definition splitroot (part : string) : string * string :=
  match part with
  | String c _ =>
      if Ascii.eqb c sep then
        let stripped := lstrip part in
        if (String.length part - String.length stripped =? 2)%nat
        then ("//", stripped) else ("/", stripped)
      else ("", part)
  | EmptyString => ("", part)
  end.

Definition keep (x : string) : bool :=
  negb (String.eqb x "") && negb (String.eqb x ".").

Definition Path (s : string) : PurePath :=
  let '(r, rel) := splitroot s in
  {| root := r; tail := filter (λ x, keep x = true) (str_split sep rel) |}.

Definition parent (p : PurePath) : PurePath :=
  match tail p with
  | [] => p
  | _ :: _ => {| root := root p; tail := removelast (tail p) |}
  end.

Definition str (p : PurePath) : string :=
  match root p, tail p with
  | EmptyString, [] => "."
  | r, t => r +:+ String.concat "/" t
  end.

End pathlib.

(** ** The script *)

Definition startup_banner : string :=
  "🐍 AI Pop Culture News - Python Setup Complete!".
Definition venv_line : string := "✅ Running in virtual environment".
Definition no_venv_line : string := "⚠️  Not running in virtual environment".
Definition closing_banner : string :=
  "✅ Python environment working correctly!".
Definition success_marker : string := "Setup successful".

(** The condition of the [if]: [or] and [and] evaluate their right operand
    only when the left one does not decide. *)
Definition venv_condition : M bool :=
  real ← hasattr_sys "real_prefix";
  if real : bool then mret true
  else
    base ← hasattr_sys "base_prefix";
    if base : bool then
      b ← getattr_sys "base_prefix";
      p ← getattr_sys "prefix";
      mret (negb (String.eqb b p))
    else mret false.

Definition main : M string :=
  print startup_banner;;
  version ← getattr_sys "version";
  print ("Python version: " +:+ version);;
  d ← getcwd;
  print ("Current working directory: " +:+ d);;
  prefix ← getattr_sys "prefix";
  print ("Virtual environment: " +:+ prefix);;
  in_venv ← venv_condition;
  (if in_venv : bool then print venv_line else print no_venv_line);;
  file ← global "__file__";
  let project_root := pathlib.parent (pathlib.Path file) in
  print ("Project root: " +:+ pathlib.str project_root);;
  print closing_banner;;
  mret success_marker.

(** The module body after the definitions: [main()] runs only under the
    guard; its value is dropped by the expression statement.  The result
    records what the call evaluated to, [None] when it was not made. *)
Definition script : M (option string) :=
  name ← global "__name__";
  if String.eqb name "__main__" then
    r ← main;
    mret (Some r)
  else mret None.

(** What one run prints: the part of [stdout] added by [m]. *)
Definition output {A : Type} (m : M A) (w : World) : list string :=
  drop (length (stdout w)) (stdout (m w).1).

Definition result {A : Type} (m : M A) (w : World) : Exn + A := (m w).2.

(** ** Derived notions used in the statements *)

(** [emit l w]: the state [w] after the texts [l] went to [stdout]. *)
Definition emit (l : list string) (w : World) : World :=
  {| sys_attrs := sys_attrs w; globals := globals w; cwd := cwd w;
     environ := environ w; files := files w; sent := sent w;
     stdout := stdout w ++ l |}.

(** The value of the condition of the [if] as a function of the [sys]
    attributes, with [p] the active prefix. *)
Definition venv_flag (attrs : gmap string string) (p : string) : bool :=
  match attrs !! "real_prefix" with
  | Some _ => true
  | None =>
      match attrs !! "base_prefix" with
      | Some b => negb (String.eqb b p)
      | None => false
      end
  end.

Definition status_line (flag : bool) : string :=
  if flag then venv_line else no_venv_line.

(** The seven texts of a complete run. *)
Definition report (v d p : string) (flag : bool) (f : string) : list string :=
  [ startup_banner;
    "Python version: " +:+ v;
    "Current working directory: " +:+ d;
    "Virtual environment: " +:+ p;
    status_line flag;
    "Project root: " +:+ pathlib.str (pathlib.parent (pathlib.Path f));
    closing_banner ].

Definition is_status_line (s : string) : bool :=
  String.eqb s venv_line || String.eqb s no_venv_line.

(** [m] leaves every component of the state as it found it, except that
    [stdout] may have grown at its end. *)
Definition observational {A : Type} (m : M A) : Prop :=
  ∀ w, ∃ l, (m w).1 = emit l w.

(** Two attribute dictionaries that agree on every name outside [names]. *)
Definition agree_off (names : list string) (m1 m2 : gmap string string) : Prop :=
  ∀ k, k ∉ names → m1 !! k = m2 !! k.

(** The text lines of a byte stream. *)
Definition text_lines (bytes : string) : list string :=
  str_split (ascii_of_nat 10) bytes.

(** ** The resolved location of the script, after the specification

    The specification speaks of "the parent directory of the resolved
    (absolute) location of the entry script".  [spec_resolved_location]
    follows those words: a relative path is taken from the working
    directory, and [..] segments are collapsed against the segment before
    them, as [Path.resolve()] does on a file system without symbolic
    links.  The script itself calls neither [resolve()] nor [absolute()]. *)

Definition is_absolute (p : pathlib.PurePath) : bool :=
  negb (String.eqb (pathlib.root p) "").

Definition collapse_step (acc : list string) (x : string) : list string :=
  if String.eqb x ".." then removelast acc else acc ++ [x].

Definition spec_resolved_location (d file : string) : pathlib.PurePath :=
  let p := pathlib.Path file in
  let q := if is_absolute p then p
           else pathlib.Path (d +:+ "/" +:+ file) in
  {| pathlib.root := pathlib.root q;
     pathlib.tail := fold_left collapse_step (pathlib.tail q) [] |}.

Definition spec_project_root (d file : string) : string :=
  pathlib.str (pathlib.parent (spec_resolved_location d file)).

(** ** Sample process states *)

(** The scenario of the specification: started in [/home/user/project],
    script at [/home/user/project/app.py], interpreter of the virtual
    environment [/home/user/project/.venv] created from [/usr]. *)
Definition scenario_world : World :=
  {| sys_attrs := list_to_map
       [ ("version", "3.12.3 (main, Feb  4 2025, 14:48:35) [GCC 13.3.0]");
         ("prefix", "/home/user/project/.venv");
         ("base_prefix", "/usr") ];
     globals := list_to_map
       [ ("__file__", "/home/user/project/app.py");
         ("__name__", "__main__") ];
     cwd := Some "/home/user/project";
     environ := ∅; files := ∅; sent := []; stdout := [] |}.

(** The same script run by the system interpreter, outside the virtual
    environment: only [sys.prefix] differs. *)
Definition system_world : World :=
  {| sys_attrs := <["prefix" := "/usr"]> (sys_attrs scenario_world);
     globals := globals scenario_world;
     cwd := cwd scenario_world;
     environ := ∅; files := ∅; sent := []; stdout := [] |}.

(** The same script in an environment made by the legacy [virtualenv],
    which sets [sys.real_prefix]. *)
Definition legacy_world : World :=
  {| sys_attrs := <["real_prefix" := "/usr"]> (sys_attrs system_world);
     globals := globals scenario_world;
     cwd := cwd scenario_world;
     environ := ∅; files := ∅; sent := []; stdout := [] |}.

(** Started as [python3 app.py] by an interpreter that hands the script
    its path as typed: [__file__] is relative. *)
Definition relative_world : World :=
  {| sys_attrs := sys_attrs scenario_world;
     globals := <["__file__" := "app.py"]> (globals scenario_world);
     cwd := cwd scenario_world;
     environ := ∅; files := ∅; sent := []; stdout := [] |}.

(** The file loaded by [import python_example]. *)
Definition imported_world : World :=
  {| sys_attrs := sys_attrs scenario_world;
     globals := <["__name__" := "python_example"]> (globals scenario_world);
     cwd := cwd scenario_world;
     environ := ∅; files := ∅; sent := []; stdout := [] |}.

(** The scenario after the working directory has been removed under the
    process: [os.getcwd()] fails. *)
Definition orphaned_world : World :=
  {| sys_attrs := sys_attrs scenario_world;
     globals := globals scenario_world;
     cwd := None;
     environ := ∅; files := ∅; sent := []; stdout := [] |}.

(** A process that reads the same facts as [legacy_world] but differs in
    everything else: another value of [sys.real_prefix], one more
    attribute of [sys], environment variables, files, traffic and text
    already on standard output. *)
Definition busy_world : World :=
  {| sys_attrs := <["real_prefix" := "/opt/python"]>
                    (<["platform" := "linux"]> (sys_attrs system_world));
     globals := <["__name__" := "python_example"]> (globals scenario_world);
     cwd := cwd scenario_world;
     environ := {[ "HOME" := "/home/user" ]};
     files := {[ "/home/user/project/app.py" := "#!/usr/bin/env python3" ]};
     sent := ["GET / HTTP/1.1"];
     stdout := ["$ python3 app.py"] |}.

(** ** Running the monad, one call at a time *)

Lemma emit_nil w : emit [] w = w.
Proof. destruct w; unfold emit; simpl. by rewrite app_nil_r. Qed.

Lemma emit_emit l k w : emit k (emit l w) = emit (l ++ k) w.
Proof. unfold emit; simpl. by rewrite app_assoc. Qed.

Lemma output_emit {A : Type} (m : M A) w l r :
  m w = (emit l w, r) → output m w = l.
Proof. intros E. unfold output. rewrite E. simpl. apply drop_app_length. Qed.

Lemma result_emit {A : Type} (m : M A) w l r :
  m w = (emit l w, r) → result m w = r.
Proof. intros E. unfold result. by rewrite E. Qed.

Section steps.
Context {A B : Type}.
Implicit Types (k : A → M B) (w : World).

Lemma bind_eq (m : M A) k w :
  (m ≫= k) w =
  match m w with (w', inl e) => (w', inl e) | (w', inr a) => k a w' end.
Proof. reflexivity. Qed.

Lemma bind_raise (m : M A) k w w' e :
  m w = (w', inl e) → (m ≫= k) w = (w', inl e).
Proof. intros E. by rewrite bind_eq, E. Qed.

Lemma bind_value (m : M A) k w w' a :
  m w = (w', inr a) → (m ≫= k) w = k a w'.
Proof. intros E. by rewrite bind_eq, E. Qed.

End steps.

Lemma bind_print {B : Type} s (k : unit → M B) w :
  (print s ≫= k) w = k () (emit [s] w).
Proof. reflexivity. Qed.

Lemma bind_status {B : Type} flag (k : unit → M B) w :
  ((if flag : bool then print venv_line else print no_venv_line) ≫= k) w =
  k () (emit [status_line flag] w).
Proof. by destruct flag. Qed.

Lemma hasattr_sys_eq a w :
  hasattr_sys a w =
  (w, inr (match sys_attrs w !! a with Some _ => true | None => false end)).
Proof. unfold hasattr_sys. by destruct (sys_attrs w !! a). Qed.

Lemma getattr_sys_Some a v w :
  sys_attrs w !! a = Some v → getattr_sys a w = (w, inr v).
Proof. intros E. unfold getattr_sys. by rewrite E. Qed.

Lemma getattr_sys_None a w :
  sys_attrs w !! a = None → getattr_sys a w = (w, inl (AttributeError "sys" a)).
Proof. intros E. unfold getattr_sys. by rewrite E. Qed.

Lemma getcwd_Some d w : cwd w = Some d → getcwd w = (w, inr d).
Proof. intros E. unfold getcwd. by rewrite E. Qed.

Lemma getcwd_None w : cwd w = None → getcwd w = (w, inl OSError).
Proof. intros E. unfold getcwd. by rewrite E. Qed.

Lemma global_Some n v w : globals w !! n = Some v → global n w = (w, inr v).
Proof. intros E. unfold global. by rewrite E. Qed.

Lemma global_None n w :
  globals w !! n = None → global n w = (w, inl (NameError n)).
Proof. intros E. unfold global. by rewrite E. Qed.

(** Reads do not change the state, so a fact about the attributes of [w]
    serves in every state reached from [w] by printing. *)
Ltac read_ok L H := erewrite bind_value by (apply L; exact H).
Ltac read_fails L H := erewrite bind_raise by (apply L; exact H).

(** ** The virtual-environment flag *)

Lemma venv_condition_value w p :
  sys_attrs w !! "prefix" = Some p →
  venv_condition w = (w, inr (venv_flag (sys_attrs w) p)).
Proof.
  intros Hp. unfold venv_condition, venv_flag.
  rewrite (bind_value _ _ _ _ _ (hasattr_sys_eq _ _)).
  destruct (sys_attrs w !! "real_prefix") as [r|]; [reflexivity|].
  rewrite (bind_value _ _ _ _ _ (hasattr_sys_eq _ _)).
  destruct (sys_attrs w !! "base_prefix") as [b|] eqn:Hb; [|reflexivity].
  rewrite (bind_value _ _ _ _ _ (getattr_sys_Some _ _ _ Hb)).
  by rewrite (bind_value _ _ _ _ _ (getattr_sys_Some _ _ _ Hp)).
Qed.

Lemma venv_flag_true attrs p :
  venv_flag attrs p = true ↔
  is_Some (attrs !! "real_prefix") ∨
  (∃ b, attrs !! "base_prefix" = Some b ∧ b ≠ p).
Proof.
  unfold venv_flag.
  destruct (attrs !! "real_prefix") as [r|].
  { split; [intros _; left; eauto | done]. }
  destruct (attrs !! "base_prefix") as [b|].
  - rewrite negb_true_iff, String.eqb_neq. split.
    + intros Hne. right. eauto.
    + intros [[? ?]|(b' & [= <-] & Hne)]; done.
  - split; [done|]. intros [[? ?]|(b' & ? & _)]; done.
Qed.

(** ** What a run does, case by case *)

Lemma main_no_version w :
  sys_attrs w !! "version" = None →
  main w = (emit [startup_banner] w, inl (AttributeError "sys" "version")).
Proof.
  intros Hv. unfold main. rewrite bind_print.
  by read_fails getattr_sys_None Hv.
Qed.

Lemma main_no_cwd w v :
  sys_attrs w !! "version" = Some v →
  cwd w = None →
  main w = (emit [startup_banner; "Python version: " +:+ v] w, inl OSError).
Proof.
  intros Hv Hd. unfold main. rewrite bind_print.
  read_ok getattr_sys_Some Hv. rewrite bind_print.
  read_fails getcwd_None Hd. by rewrite emit_emit.
Qed.

Lemma main_no_prefix w v d :
  sys_attrs w !! "version" = Some v →
  cwd w = Some d →
  sys_attrs w !! "prefix" = None →
  main w = (emit [startup_banner; "Python version: " +:+ v;
                  "Current working directory: " +:+ d] w,
            inl (AttributeError "sys" "prefix")).
Proof.
  intros Hv Hd Hp. unfold main. rewrite bind_print.
  read_ok getattr_sys_Some Hv. rewrite bind_print.
  read_ok getcwd_Some Hd. rewrite bind_print.
  read_fails getattr_sys_None Hp. by rewrite !emit_emit.
Qed.

Lemma main_no_file w v d p :
  sys_attrs w !! "version" = Some v →
  cwd w = Some d →
  sys_attrs w !! "prefix" = Some p →
  globals w !! "__file__" = None →
  main w = (emit [startup_banner; "Python version: " +:+ v;
                  "Current working directory: " +:+ d;
                  "Virtual environment: " +:+ p;
                  status_line (venv_flag (sys_attrs w) p)] w,
            inl (NameError "__file__")).
Proof.
  intros Hv Hd Hp Hf. unfold main. rewrite bind_print.
  read_ok getattr_sys_Some Hv. rewrite bind_print.
  read_ok getcwd_Some Hd. rewrite bind_print.
  read_ok getattr_sys_Some Hp. rewrite bind_print.
  read_ok venv_condition_value Hp. rewrite bind_status.
  read_fails global_None Hf. by rewrite !emit_emit.
Qed.

Lemma main_complete w v d p f :
  sys_attrs w !! "version" = Some v →
  cwd w = Some d →
  sys_attrs w !! "prefix" = Some p →
  globals w !! "__file__" = Some f →
  main w = (emit (report v d p (venv_flag (sys_attrs w) p) f) w,
            inr success_marker).
Proof.
  intros Hv Hd Hp Hf. unfold main. rewrite bind_print.
  read_ok getattr_sys_Some Hv. rewrite bind_print.
  read_ok getcwd_Some Hd. rewrite bind_print.
  read_ok getattr_sys_Some Hp. rewrite bind_print.
  read_ok venv_condition_value Hp. rewrite bind_status.
  read_ok global_Some Hf. rewrite !bind_print.
  by rewrite !emit_emit.
Qed.

Lemma main_output w v d p f :
  sys_attrs w !! "version" = Some v →
  cwd w = Some d →
  sys_attrs w !! "prefix" = Some p →
  globals w !! "__file__" = Some f →
  output main w = report v d p (venv_flag (sys_attrs w) p) f.
Proof. intros. eapply output_emit. by apply main_complete. Qed.

(** Once the prefix has been read the status line is the fifth text,
    whether or not the run gets past the read of [__file__]. *)
Lemma main_status_line w v d p :
  sys_attrs w !! "version" = Some v →
  cwd w = Some d →
  sys_attrs w !! "prefix" = Some p →
  ∃ rest,
    output main w =
    [ startup_banner; "Python version: " +:+ v;
      "Current working directory: " +:+ d; "Virtual environment: " +:+ p;
      status_line (venv_flag (sys_attrs w) p) ] ++ rest ∧
    Forall (λ s, is_status_line s = false) rest.
Proof.
  intros Hv Hd Hp.
  destruct (globals w !! "__file__") as [f|] eqn:Hf.
  - eexists [_; _]. split.
    + rewrite (main_output w v d p f) by done. reflexivity.
    + repeat constructor.
  - exists []. split; [|constructor].
    eapply output_emit. by apply main_no_file.
Qed.

(** ** Computations that only write to [stdout] *)

Create HintDb observe.

Section observational.
Context {A B : Type}.

Lemma observational_ret (a : A) : observational (mret a).
Proof. intros w. exists []. by rewrite emit_nil. Qed.

Lemma observational_raise (e : Exn) : observational (@raise A e).
Proof. intros w. exists []. by rewrite emit_nil. Qed.

Lemma observational_bind (m : M A) (k : A → M B) :
  observational m → (∀ a, observational (k a)) → observational (m ≫= k).
Proof.
  intros Hm Hk w. rewrite bind_eq.
  destruct (Hm w) as [l Hl].
  destruct (m w) as [w' [e|a]]; simpl in Hl; subst w'.
  - by exists l.
  - destruct (Hk a (emit l w)) as [l' Hl'].
    exists (l ++ l')%list. by rewrite Hl', emit_emit.
Qed.

Lemma observational_if (b : bool) (m1 m2 : M A) :
  observational m1 → observational m2 →
  observational (if b then m1 else m2).
Proof. by destruct b. Qed.

End observational.

Lemma observational_print s : observational (print s).
Proof. intros w. by exists [s]. Qed.

Lemma observational_hasattr_sys a : observational (hasattr_sys a).
Proof. intros w. exists []. by rewrite emit_nil. Qed.

Lemma observational_getattr_sys a : observational (getattr_sys a).
Proof.
  intros w. exists []. unfold getattr_sys.
  destruct (sys_attrs w !! a); by rewrite emit_nil.
Qed.

Lemma observational_getcwd : observational getcwd.
Proof.
  intros w. exists []. unfold getcwd.
  destruct (cwd w); by rewrite emit_nil.
Qed.

Lemma observational_global n : observational (global n).
Proof.
  intros w. exists []. unfold global.
  destruct (globals w !! n); by rewrite emit_nil.
Qed.

#[global] Hint Resolve observational_ret observational_raise
  observational_print observational_hasattr_sys observational_getattr_sys
  observational_getcwd observational_global : observe.

Ltac observe :=
  repeat first
    [ apply observational_bind; [|intros ?]
    | apply observational_if
    | solve [auto with observe] ].

Lemma observational_venv_condition : observational venv_condition.
Proof. unfold venv_condition. observe. Qed.

#[global] Hint Resolve observational_venv_condition : observe.

Lemma observational_main : observational main.
Proof. unfold main. observe. Qed.

#[global] Hint Resolve observational_main : observe.

Lemma observational_script : observational script.
Proof. unfold script. observe. Qed.

Lemma observational_frame {A : Type} (m : M A) w :
  observational m →
  sys_attrs (m w).1 = sys_attrs w ∧ globals (m w).1 = globals w ∧
  cwd (m w).1 = cwd w ∧ environ (m w).1 = environ w ∧
  files (m w).1 = files w ∧ sent (m w).1 = sent w ∧
  stdout (m w).1 = stdout w ++ output m w.
Proof.
  intros Hm. destruct (Hm w) as [l Hl].
  unfold output. rewrite Hl. simpl. by rewrite drop_app_length.
Qed.

(** ** Text lines of the byte stream *)

Lemma str_split_no_sep c s rest :
  has_char c s = false →
  str_split c (s +:+ String c rest) = s :: str_split c rest.
Proof.
  induction s as [|c' s IH]; simpl; intros H.
  - by rewrite Ascii.eqb_refl.
  - apply orb_false_iff in H as [Hc Hs].
    rewrite Hc, (IH Hs). reflexivity.
Qed.

(** When no printed text holds a newline, the text lines of the stream are
    the printed texts (followed by the empty piece after the last
    newline). *)
Lemma text_lines_stdout_bytes out :
  Forall (λ s, has_char (ascii_of_nat 10) s = false) out →
  text_lines (stdout_bytes out) = out ++ [""].
Proof.
  unfold text_lines. induction 1 as [|s out Hs _ IH]; [reflexivity|].
  change (stdout_bytes (s :: out))
    with (s +:+ String (ascii_of_nat 10) (stdout_bytes out)).
  by rewrite (str_split_no_sep _ _ _ Hs), IH.
Qed.

(** ** Paths *)

Lemma fold_collapse_no_dotdot l acc :
  Forall (λ x, String.eqb x ".." = false) l →
  fold_left collapse_step l acc = acc ++ l.
Proof.
  intros H. revert acc. induction H as [|x l Hx _ IH]; intros acc; simpl.
  - by rewrite app_nil_r.
  - unfold collapse_step at 2. rewrite Hx, IH. by rewrite <- app_assoc.
Qed.

(** A path that is absolute and has no [..] segment is its own resolved
    location. *)
Lemma spec_resolved_location_id d f :
  is_absolute (pathlib.Path f) = true →
  Forall (λ x, String.eqb x ".." = false) (pathlib.tail (pathlib.Path f)) →
  spec_resolved_location d f = pathlib.Path f.
Proof.
  intros Habs Hdd. unfold spec_resolved_location. rewrite Habs. simpl.
  rewrite (fold_collapse_no_dotdot _ [] Hdd). simpl.
  by destruct (pathlib.Path f).
Qed.

(** ** Runs in states that agree on what the script reads *)

Lemma venv_flag_agree names attrs1 attrs2 p :
  agree_off names attrs1 attrs2 →
  "real_prefix" ∉ names → "base_prefix" ∉ names →
  venv_flag attrs1 p = venv_flag attrs2 p.
Proof.
  intros H Hr Hb. unfold venv_flag. by rewrite (H _ Hr), (H _ Hb).
Qed.

Lemma report_lookup_off_status v d p flag1 flag2 f i :
  i ≠ 4 → report v d p flag1 f !! i = report v d p flag2 f !! i.
Proof.
  intros Hi. do 5 (destruct i as [|i]; [done|]). reflexivity.
Qed.

(** Rewrites the output and the result of the run in [w] with the case
    lemma [E]. *)
Ltac run_case E :=
  let H := fresh "Hrun" in
  pose proof E as H;
  rewrite ?(output_emit _ _ _ _ H), ?(result_emit _ _ _ _ H);
  clear H.

(** ** Membership in the printed texts, by computation *)

Lemma elem_of_existsb (s : string) (l : list string) :
  s ∈ l ↔ existsb (String.eqb s) l = true.
Proof.
  rewrite list_elem_of_In, existsb_exists. split.
  - intros H. exists s. split; [done|]. apply String.eqb_refl.
  - intros (x & Hx & Heq). apply String.eqb_eq in Heq. by subst.
Qed.

Lemma not_elem_of_existsb (s : string) (l : list string) :
  s ∉ l ↔ existsb (String.eqb s) l = false.
Proof. rewrite elem_of_existsb. by destruct (existsb _ l). Qed.

Lemma filter_no_status rest :
  Forall (λ s, is_status_line s = false) rest →
  List.filter is_status_line rest = [].
Proof.
  induction 1 as [|s rest Hs _ IH]; simpl; [done|]. by rewrite Hs.
Qed.

Lemma existsb_no_status s rest :
  is_status_line s = true →
  Forall (λ s, is_status_line s = false) rest →
  existsb (String.eqb s) rest = false.
Proof.
  intros Hs. induction 1 as [|x rest Hx _ IH]; simpl; [done|].
  rewrite IH, orb_false_r. destruct (String.eqb_spec s x); [|done].
  subst. congruence.
Qed.

(** * The properties *)

(** C1.  The flag computed by the condition of the [if] in [main] is true
    exactly when the [sys] module has an attribute [real_prefix], or has an
    attribute [base_prefix] whose value differs from [sys.prefix]; the fifth
    text printed is the "Running in virtual environment" line when the flag
    is true and the "Not running in virtual environment" line when it is
    false, and the other of the two lines is not printed. *)
Theorem venv_flag_decides_status_line w v d p :
  sys_attrs w !! "version" = Some v →
  cwd w = Some d →
  sys_attrs w !! "prefix" = Some p →
  ∃ flag : bool,
    (∀ l, venv_condition (emit l w) = (emit l w, inr flag)) ∧
    (flag = true ↔
       is_Some (sys_attrs w !! "real_prefix") ∨
       (∃ b, sys_attrs w !! "base_prefix" = Some b ∧ b ≠ p)) ∧
    output main w !! 4 = Some (if flag then venv_line else no_venv_line) ∧
    (if flag then no_venv_line else venv_line) ∉ output main w.
Proof.
  intros Hv Hd Hp. exists (venv_flag (sys_attrs w) p).
  destruct (main_status_line w v d p Hv Hd Hp) as (rest & Hout & Hrest).
  split; [|split; [|split]].
  - intros l. by apply (venv_condition_value (emit l w)).
  - apply venv_flag_true.
  - rewrite Hout. reflexivity.
  - rewrite Hout. apply not_elem_of_existsb. rewrite existsb_app.
    destruct (venv_flag (sys_attrs w) p);
      by rewrite (existsb_no_status _ rest).
Qed.

Lemma venv_flag_decides_status_line_witness :
  ∃ flag : bool,
    (∀ l, venv_condition (emit l scenario_world)
          = (emit l scenario_world, inr flag)) ∧
    (flag = true ↔
       is_Some (sys_attrs scenario_world !! "real_prefix") ∨
       (∃ b, sys_attrs scenario_world !! "base_prefix" = Some b ∧
             b ≠ "/home/user/project/.venv")) ∧
    output main scenario_world !! 4
      = Some (if flag then venv_line else no_venv_line) ∧
    (if flag then no_venv_line else venv_line) ∉ output main scenario_world.
Proof.
  apply (venv_flag_decides_status_line scenario_world
           "3.12.3 (main, Feb  4 2025, 14:48:35) [GCC 13.3.0]"
           "/home/user/project" "/home/user/project/.venv");
    reflexivity.
Defined.

(** C2 (as the code has it).  The project-root line is ["Project root: "]
    followed by the parent of the script path exactly as the runtime hands
    it over in [__file__]: the lexical parent that [pathlib] computes, not
    resolved against the working directory and with [..] segments kept.
    It is the parent of the resolved absolute location whenever [__file__]
    is absolute and free of [..] segments, and for a given [__file__] it
    does not depend on the working directory of the caller. *)
Theorem project_root_is_parent_of_file w v d p f :
  sys_attrs w !! "version" = Some v →
  cwd w = Some d →
  sys_attrs w !! "prefix" = Some p →
  globals w !! "__file__" = Some f →
  output main w !! 5
    = Some ("Project root: "
            +:+ pathlib.str (pathlib.parent (pathlib.Path f))) ∧
  (is_absolute (pathlib.Path f) = true →
   Forall (λ x, String.eqb x ".." = false) (pathlib.tail (pathlib.Path f)) →
   pathlib.str (pathlib.parent (pathlib.Path f)) = spec_project_root d f) ∧
  (∀ w' d',
     sys_attrs w' = sys_attrs w → globals w' = globals w →
     cwd w' = Some d' →
     output main w' !! 5 = output main w !! 5).
Proof.
  intros Hv Hd Hp Hf. rewrite (main_output w v d p f) by done.
  split; [reflexivity|]. split.
  - intros Habs Hdd. unfold spec_project_root.
    by rewrite spec_resolved_location_id.
  - intros w' d' Hs Hg Hd'.
    rewrite (main_output w' v d' p f) by congruence. reflexivity.
Qed.

Lemma project_root_is_parent_of_file_witness :
  output main scenario_world !! 5
    = Some ("Project root: "
            +:+ pathlib.str (pathlib.parent
                  (pathlib.Path "/home/user/project/app.py"))) ∧
  (is_absolute (pathlib.Path "/home/user/project/app.py") = true →
   Forall (λ x, String.eqb x ".." = false)
     (pathlib.tail (pathlib.Path "/home/user/project/app.py")) →
   pathlib.str (pathlib.parent (pathlib.Path "/home/user/project/app.py"))
   = spec_project_root "/home/user/project" "/home/user/project/app.py") ∧
  (∀ w' d',
     sys_attrs w' = sys_attrs scenario_world →
     globals w' = globals scenario_world →
     cwd w' = Some d' →
     output main w' !! 5 = output main scenario_world !! 5).
Proof.
  apply (project_root_is_parent_of_file scenario_world
           "3.12.3 (main, Feb  4 2025, 14:48:35) [GCC 13.3.0]"
           "/home/user/project" "/home/user/project/.venv"
           "/home/user/project/app.py");
    reflexivity.
Defined.

(** C2 fails as stated.  With [__file__ = "app.py"] (the script started by
    its relative name from [/home/user/project]) the line printed is
    ["Project root: ."], while the parent of the resolved absolute location
    of the script is [/home/user/project]. *)
Lemma relative_script_is_not_resolved :
  cwd relative_world = Some "/home/user/project" ∧
  globals relative_world !! "__file__" = Some "app.py" ∧
  output main relative_world !! 5 = Some "Project root: ." ∧
  spec_project_root "/home/user/project" "app.py" = "/home/user/project" ∧
  output main relative_world !! 5
    ≠ Some ("Project root: "
            +:+ spec_project_root "/home/user/project" "app.py").
Proof. repeat split; try reflexivity. vm_compute. discriminate. Qed.

(** C3.  Once the run has read the version, the working directory and the
    prefix, its output holds exactly one of the two virtual-environment
    status lines, whatever the prefix attributes are: one text among those
    printed is a status line, and the "Running" line is there exactly when
    the "Not running" line is not. *)
Theorem exactly_one_status_line w v d p :
  sys_attrs w !! "version" = Some v →
  cwd w = Some d →
  sys_attrs w !! "prefix" = Some p →
  length (List.filter is_status_line (output main w)) = 1 ∧
  (venv_line ∈ output main w ↔ no_venv_line ∉ output main w).
Proof.
  intros Hv Hd Hp.
  destruct (main_status_line w v d p Hv Hd Hp) as (rest & -> & Hrest).
  split.
  - rewrite List.filter_app, (filter_no_status _ Hrest).
    by destruct (venv_flag (sys_attrs w) p).
  - rewrite elem_of_existsb, not_elem_of_existsb, !existsb_app.
    destruct (venv_flag (sys_attrs w) p);
      rewrite !(existsb_no_status _ rest) by done; simpl; done.
Qed.

Lemma exactly_one_status_line_witness :
  length (List.filter is_status_line (output main system_world)) = 1 ∧
  (venv_line ∈ output main system_world ↔
   no_venv_line ∉ output main system_world).
Proof.
  apply (exactly_one_status_line system_world
           "3.12.3 (main, Feb  4 2025, 14:48:35) [GCC 13.3.0]"
           "/home/user/project" "/usr");
    reflexivity.
Defined.

(** C4 (as the code has it).  A complete run writes exactly seven texts to
    standard output, in this order: the startup banner, the version line,
    the working-directory line, the prefix line, one of the two status
    lines, the project-root line and the closing banner; nothing else is
    written. *)
Theorem main_prints_seven_lines w v d p f :
  sys_attrs w !! "version" = Some v →
  cwd w = Some d →
  sys_attrs w !! "prefix" = Some p →
  globals w !! "__file__" = Some f →
  ∃ status,
    (status = venv_line ∨ status = no_venv_line) ∧
    output main w =
      [ "🐍 AI Pop Culture News - Python Setup Complete!";
        "Python version: " +:+ v;
        "Current working directory: " +:+ d;
        "Virtual environment: " +:+ p;
        status;
        "Project root: " +:+ pathlib.str (pathlib.parent (pathlib.Path f));
        "✅ Python environment working correctly!" ] ∧
    length (output main w) = 7 ∧
    stdout (main w).1 = stdout w ++ output main w.
Proof.
  intros Hv Hd Hp Hf.
  exists (status_line (venv_flag (sys_attrs w) p)).
  rewrite (main_output w v d p f) by done.
  split; [|split; [reflexivity|split; [reflexivity|]]].
  - destruct (venv_flag _ _); [by left | by right].
  - rewrite (main_complete w v d p f) by done. reflexivity.
Qed.

Lemma main_prints_seven_lines_witness :
  ∃ status,
    (status = venv_line ∨ status = no_venv_line) ∧
    output main scenario_world =
      [ "🐍 AI Pop Culture News - Python Setup Complete!";
        "Python version: "
          +:+ "3.12.3 (main, Feb  4 2025, 14:48:35) [GCC 13.3.0]";
        "Current working directory: " +:+ "/home/user/project";
        "Virtual environment: " +:+ "/home/user/project/.venv";
        status;
        "Project root: "
          +:+ pathlib.str (pathlib.parent
                (pathlib.Path "/home/user/project/app.py"));
        "✅ Python environment working correctly!" ] ∧
    length (output main scenario_world) = 7 ∧
    stdout (main scenario_world).1
      = stdout scenario_world ++ output main scenario_world.
Proof.
  apply (main_prints_seven_lines scenario_world
           "3.12.3 (main, Feb  4 2025, 14:48:35) [GCC 13.3.0]"
           "/home/user/project" "/home/user/project/.venv"
           "/home/user/project/app.py");
    reflexivity.
Defined.

(** C4 fails as stated: the run of the scenario writes seven lines, not
    six. *)
Lemma output_is_not_six_lines :
  output main scenario_world =
    [ "🐍 AI Pop Culture News - Python Setup Complete!";
      "Python version: 3.12.3 (main, Feb  4 2025, 14:48:35) [GCC 13.3.0]";
      "Current working directory: /home/user/project";
      "Virtual environment: /home/user/project/.venv";
      "✅ Running in virtual environment";
      "Project root: /home/user/project";
      "✅ Python environment working correctly!" ] ∧
  length (output main scenario_world) ≠ 6.
Proof. split; [reflexivity|]. vm_compute. discriminate. Qed.

(** C5.  When every fact the run asks for is there (the version, the
    working directory, the prefix and the script path), [main] raises no
    exception and returns the literal ["Setup successful"]: the statement
    covers every value of the flag, so the value is the same on both
    branches of the conditional. *)
Theorem main_returns_success_marker w v d p f :
  sys_attrs w !! "version" = Some v →
  cwd w = Some d →
  sys_attrs w !! "prefix" = Some p →
  globals w !! "__file__" = Some f →
  result main w = inr "Setup successful".
Proof.
  intros Hv Hd Hp Hf. eapply result_emit. by apply main_complete.
Qed.

Lemma main_returns_success_marker_witness :
  result main scenario_world = inr "Setup successful" ∧
  result main system_world = inr "Setup successful".
Proof.
  split.
  - apply (main_returns_success_marker scenario_world
             "3.12.3 (main, Feb  4 2025, 14:48:35) [GCC 13.3.0]"
             "/home/user/project" "/home/user/project/.venv"
             "/home/user/project/app.py");
      reflexivity.
  - apply (main_returns_success_marker system_world
             "3.12.3 (main, Feb  4 2025, 14:48:35) [GCC 13.3.0]"
             "/home/user/project" "/usr" "/home/user/project/app.py");
      reflexivity.
Defined.

(** C6.  [main] is purely observational: in every state, whether it returns
    or raises, it leaves the files, the network traffic, the working
    directory, the environment variables, the attributes of [sys] and the
    module globals as they were; its only effect is that the texts it
    prints are appended to standard output. *)
Theorem main_purely_observational w :
  files (main w).1 = files w ∧
  sent (main w).1 = sent w ∧
  cwd (main w).1 = cwd w ∧
  environ (main w).1 = environ w ∧
  sys_attrs (main w).1 = sys_attrs w ∧
  globals (main w).1 = globals w ∧
  stdout (main w).1 = stdout w ++ output main w.
Proof.
  pose proof (observational_frame main w observational_main) as H.
  tauto.
Qed.

(** C7 (as the code has it).  Two runs of the same script by the same
    runtime, between which only the working directory and [sys.prefix] may
    have changed, print the same seven lines except for the
    working-directory line, the prefix line and the status line, which is
    computed from the prefix.  The working-directory line differs only if
    the working directory changed; the prefix line and the status line
    differ only if the prefix changed; with neither changed the two outputs
    are byte-identical, as is the output of a second run in the state the
    first one left. *)
Theorem successive_runs w1 w2 v d1 d2 p1 p2 f :
  agree_off ["prefix"] (sys_attrs w1) (sys_attrs w2) →
  globals w1 = globals w2 →
  sys_attrs w1 !! "version" = Some v →
  cwd w1 = Some d1 → cwd w2 = Some d2 →
  sys_attrs w1 !! "prefix" = Some p1 →
  sys_attrs w2 !! "prefix" = Some p2 →
  globals w1 !! "__file__" = Some f →
  length (output main w1) = 7 ∧ length (output main w2) = 7 ∧
  (∀ i, i ∉ [2; 3; 4] → output main w1 !! i = output main w2 !! i) ∧
  (output main w1 !! 2 ≠ output main w2 !! 2 → d1 ≠ d2) ∧
  (output main w1 !! 3 ≠ output main w2 !! 3 → p1 ≠ p2) ∧
  (output main w1 !! 4 ≠ output main w2 !! 4 → p1 ≠ p2) ∧
  (d1 = d2 → p1 = p2 →
   stdout_bytes (output main w1) = stdout_bytes (output main w2)) ∧
  stdout_bytes (output main (main w1).1) = stdout_bytes (output main w1).
Proof.
  intros Hs Hg Hv Hd1 Hd2 Hp1 Hp2 Hf.
  assert (Hv2 : sys_attrs w2 !! "version" = Some v).
  { rewrite <- Hs; [done|]. apply not_elem_of_existsb. reflexivity. }
  assert (Hf2 : globals w2 !! "__file__" = Some f) by congruence.
  assert (Hflag : ∀ p, venv_flag (sys_attrs w1) p = venv_flag (sys_attrs w2) p).
  { intros p. apply (venv_flag_agree ["prefix"]); [done| |];
      apply not_elem_of_existsb; reflexivity. }
  rewrite (main_complete w1 v d1 p1 f) by done. simpl.
  rewrite (main_output (emit _ w1) v d1 p1 f) by done. simpl.
  rewrite (main_output w1 v d1 p1 f), (main_output w2 v d2 p2 f) by done.
  repeat split.
  - intros i Hi.
    destruct i as [|[|[|[|[|i]]]]]; try reflexivity;
      exfalso; apply Hi; repeat constructor.
  - intros H ->. by apply H.
  - intros H ->. by apply H.
  - intros H ->. apply H. simpl. by rewrite Hflag.
  - intros -> ->. by rewrite Hflag.
Qed.

Lemma successive_runs_witness :
  length (output main system_world) = 7 ∧
  length (output main scenario_world) = 7 ∧
  (∀ i, i ∉ [2; 3; 4] →
     output main system_world !! i = output main scenario_world !! i) ∧
  (output main system_world !! 2 ≠ output main scenario_world !! 2 →
   "/home/user/project" ≠ "/home/user/project") ∧
  (output main system_world !! 3 ≠ output main scenario_world !! 3 →
   "/usr" ≠ "/home/user/project/.venv") ∧
  (output main system_world !! 4 ≠ output main scenario_world !! 4 →
   "/usr" ≠ "/home/user/project/.venv") ∧
  ("/home/user/project" = "/home/user/project" →
   "/usr" = "/home/user/project/.venv" →
   stdout_bytes (output main system_world)
   = stdout_bytes (output main scenario_world)) ∧
  stdout_bytes (output main (main system_world).1)
  = stdout_bytes (output main system_world).
Proof.
  apply (successive_runs system_world scenario_world
           "3.12.3 (main, Feb  4 2025, 14:48:35) [GCC 13.3.0]"
           "/home/user/project" "/home/user/project"
           "/usr" "/home/user/project/.venv" "/home/user/project/app.py");
    try reflexivity.
  intros k Hk. simpl. apply lookup_insert_ne. intros <-.
  apply Hk, elem_of_existsb. reflexivity.
Defined.

(** C7 fails as stated.  The system interpreter and the interpreter of the
    virtual environment differ in [sys.prefix] alone, yet their outputs
    differ in the status line, which is neither the working-directory line
    nor the prefix line. *)
Lemma status_line_varies_with_prefix :
  agree_off ["prefix"] (sys_attrs system_world) (sys_attrs scenario_world) ∧
  globals system_world = globals scenario_world ∧
  cwd system_world = cwd scenario_world ∧
  output main system_world !! 4
    = Some "⚠️  Not running in virtual environment" ∧
  output main scenario_world !! 4 = Some "✅ Running in virtual environment" ∧
  output main system_world !! 4 ≠ output main scenario_world !! 4.
Proof.
  repeat split; try reflexivity.
  - intros k Hk. simpl. apply lookup_insert_ne. intros <-.
    apply Hk, elem_of_existsb. reflexivity.
  - vm_compute. discriminate.
Qed.

(** C8 (as the code has it).  Started in [/home/user/project], with the
    script at [/home/user/project/app.py] and that absolute path handed to
    it in [__file__], and the interpreter of the virtual environment
    [/home/user/project/.venv] (base prefix different from the prefix), the
    run prints the working-directory line and the project-root line for
    [/home/user/project] and the "Running in virtual environment" line. *)
Theorem scenario_output w v b :
  sys_attrs w !! "version" = Some v →
  cwd w = Some "/home/user/project" →
  sys_attrs w !! "prefix" = Some "/home/user/project/.venv" →
  sys_attrs w !! "base_prefix" = Some b →
  b ≠ "/home/user/project/.venv" →
  globals w !! "__file__" = Some "/home/user/project/app.py" →
  output main w =
    [ startup_banner;
      "Python version: " +:+ v;
      "Current working directory: /home/user/project";
      "Virtual environment: /home/user/project/.venv";
      "✅ Running in virtual environment";
      "Project root: /home/user/project";
      closing_banner ] ∧
  "Current working directory: /home/user/project" ∈ output main w ∧
  "Project root: /home/user/project" ∈ output main w ∧
  "✅ Running in virtual environment" ∈ output main w.
Proof.
  intros Hv Hd Hp Hb Hne Hf.
  rewrite (main_output w v _ _ _ Hv Hd Hp Hf).
  assert (venv_flag (sys_attrs w) "/home/user/project/.venv" = true) as ->.
  { apply venv_flag_true. right. eauto. }
  split; [reflexivity|].
  repeat split; apply elem_of_existsb; simpl;
    rewrite ?orb_true_r; reflexivity.
Qed.

Lemma scenario_output_witness :
  output main scenario_world =
    [ startup_banner;
      "Python version: "
        +:+ "3.12.3 (main, Feb  4 2025, 14:48:35) [GCC 13.3.0]";
      "Current working directory: /home/user/project";
      "Virtual environment: /home/user/project/.venv";
      "✅ Running in virtual environment";
      "Project root: /home/user/project";
      closing_banner ] ∧
  "Current working directory: /home/user/project"
    ∈ output main scenario_world ∧
  "Project root: /home/user/project" ∈ output main scenario_world ∧
  "✅ Running in virtual environment" ∈ output main scenario_world.
Proof.
  apply (scenario_output scenario_world
           "3.12.3 (main, Feb  4 2025, 14:48:35) [GCC 13.3.0]" "/usr");
    try reflexivity.
  discriminate.
Defined.

(** C8 fails as stated.  In the same scenario with the script started by
    its relative name ([__file__ = "app.py"], which resolves to
    [/home/user/project/app.py] from the working directory), the
    working-directory line and the "Running in virtual environment" line
    are printed, but the project-root line for [/home/user/project] is
    not: the line printed is ["Project root: ."]. *)
Lemma scenario_started_by_relative_name :
  cwd relative_world = Some "/home/user/project" ∧
  sys_attrs relative_world !! "prefix" = Some "/home/user/project/.venv" ∧
  sys_attrs relative_world !! "base_prefix" = Some "/usr" ∧
  pathlib.str (spec_resolved_location "/home/user/project" "app.py")
    = "/home/user/project/app.py" ∧
  "Current working directory: /home/user/project"
    ∈ output main relative_world ∧
  "✅ Running in virtual environment" ∈ output main relative_world ∧
  "Project root: ." ∈ output main relative_world ∧
  "Project root: /home/user/project" ∉ output main relative_world.
Proof.
  repeat split; try reflexivity.
  1-3: apply elem_of_existsb; reflexivity.
  apply not_elem_of_existsb. reflexivity.
Qed.

(** C9.  Two runs in states that agree on everything the script reads
    except the attributes [sys.real_prefix] and [sys.base_prefix] (the
    prefix itself being the same) end the same way, with the same return
    value or the same exception, and print the same texts at every position
    but the fifth, the status line. *)
Theorem prefix_attributes_touch_only_status_line w1 w2 :
  agree_off ["real_prefix"; "base_prefix"] (sys_attrs w1) (sys_attrs w2) →
  globals w1 = globals w2 →
  cwd w1 = cwd w2 →
  result main w1 = result main w2 ∧
  length (output main w1) = length (output main w2) ∧
  (∀ i, i ≠ 4 → output main w1 !! i = output main w2 !! i).
Proof.
  intros Hs Hg Hc.
  assert (Hv : sys_attrs w1 !! "version" = sys_attrs w2 !! "version").
  { apply Hs, not_elem_of_existsb. reflexivity. }
  assert (Hp : sys_attrs w1 !! "prefix" = sys_attrs w2 !! "prefix").
  { apply Hs, not_elem_of_existsb. reflexivity. }
  destruct (sys_attrs w1 !! "version") as [v|] eqn:Hv1; symmetry in Hv.
  2: { run_case (main_no_version w1 Hv1). run_case (main_no_version w2 Hv).
       done. }
  destruct (cwd w1) as [d|] eqn:Hd1; symmetry in Hc.
  2: { run_case (main_no_cwd w1 v Hv1 Hd1). run_case (main_no_cwd w2 v Hv Hc).
       done. }
  destruct (sys_attrs w1 !! "prefix") as [p|] eqn:Hp1; symmetry in Hp.
  2: { run_case (main_no_prefix w1 v d Hv1 Hd1 Hp1).
       run_case (main_no_prefix w2 v d Hv Hc Hp). done. }
  destruct (globals w1 !! "__file__") as [f|] eqn:Hf1.
  - assert (Hf2 : globals w2 !! "__file__" = Some f) by congruence.
    run_case (main_complete w1 v d p f Hv1 Hd1 Hp1 Hf1).
    run_case (main_complete w2 v d p f Hv Hc Hp Hf2).
    repeat split. apply report_lookup_off_status.
  - assert (Hf2 : globals w2 !! "__file__" = None) by congruence.
    run_case (main_no_file w1 v d p Hv1 Hd1 Hp1 Hf1).
    run_case (main_no_file w2 v d p Hv Hc Hp Hf2).
    repeat split. intros i Hi.
    do 5 (destruct i as [|i]; [done|]). reflexivity.
Qed.

Lemma prefix_attributes_touch_only_status_line_witness :
  result main system_world = result main legacy_world ∧
  length (output main system_world) = length (output main legacy_world) ∧
  (∀ i, i ≠ 4 →
     output main system_world !! i = output main legacy_world !! i).
Proof.
  apply (prefix_attributes_touch_only_status_line system_world legacy_world);
    try reflexivity.
  intros k Hk. simpl. symmetry. apply lookup_insert_ne. intros <-.
  apply Hk, elem_of_existsb. reflexivity.
Defined.

(** C10.  When the file is loaded under a module name other than
    [__main__], the guard is false and [main] is not called: the load
    prints nothing, leaves the state as it was and yields no success
    marker. *)
Theorem import_does_not_run_main w n :
  globals w !! "__name__" = Some n →
  n ≠ "__main__" →
  (script w).1 = w ∧
  output script w = [] ∧
  result script w = inr None.
Proof.
  intros Hn Hne.
  assert (E : script w = (w, inr None)).
  { unfold script. read_ok global_Some Hn.
    apply String.eqb_neq in Hne. by rewrite Hne. }
  unfold output, result. rewrite E. simpl.
  by rewrite drop_all.
Qed.

Lemma import_does_not_run_main_witness :
  (script imported_world).1 = imported_world ∧
  output script imported_world = [] ∧
  result script imported_world = inr None.
Proof.
  apply (import_does_not_run_main imported_world "python_example").
  - reflexivity.
  - discriminate.
Defined.

(** * Further properties of the script *)

(** ** The five ways a run can go *)

Lemma main_cases w :
  (sys_attrs w !! "version" = None ∧
   main w = (emit [startup_banner] w, inl (AttributeError "sys" "version")))
  ∨ (∃ v, sys_attrs w !! "version" = Some v ∧ cwd w = None ∧
       main w = (emit [startup_banner; "Python version: " +:+ v] w,
                 inl OSError))
  ∨ (∃ v d, sys_attrs w !! "version" = Some v ∧ cwd w = Some d ∧
       sys_attrs w !! "prefix" = None ∧
       main w = (emit [startup_banner; "Python version: " +:+ v;
                       "Current working directory: " +:+ d] w,
                 inl (AttributeError "sys" "prefix")))
  ∨ (∃ v d p, sys_attrs w !! "version" = Some v ∧ cwd w = Some d ∧
       sys_attrs w !! "prefix" = Some p ∧ globals w !! "__file__" = None ∧
       main w = (emit [startup_banner; "Python version: " +:+ v;
                       "Current working directory: " +:+ d;
                       "Virtual environment: " +:+ p;
                       status_line (venv_flag (sys_attrs w) p)] w,
                 inl (NameError "__file__")))
  ∨ (∃ v d p f, sys_attrs w !! "version" = Some v ∧ cwd w = Some d ∧
       sys_attrs w !! "prefix" = Some p ∧ globals w !! "__file__" = Some f ∧
       main w = (emit (report v d p (venv_flag (sys_attrs w) p) f) w,
                 inr success_marker)).
Proof.
  destruct (sys_attrs w !! "version") as [v|] eqn:Hv.
  2: { left. split; [done|]. by apply main_no_version. }
  destruct (cwd w) as [d|] eqn:Hd.
  2: { right; left. exists v. repeat split. by apply main_no_cwd. }
  destruct (sys_attrs w !! "prefix") as [p|] eqn:Hp.
  2: { do 2 right; left. exists v, d. repeat split.
       by apply main_no_prefix. }
  destruct (globals w !! "__file__") as [f|] eqn:Hf.
  - do 4 right. exists v, d, p, f. repeat split. by apply main_complete.
  - do 3 right; left. exists v, d, p. repeat split. by apply main_no_file.
Qed.

(** X1.  [main] returns (and then returns the success marker) exactly when
    the four facts it reads are there: [sys.version], the working
    directory, [sys.prefix] and [__file__]; in every other state it
    raises. *)
Theorem main_returns_iff_facts_available w :
  (result main w = inr success_marker ↔
   is_Some (sys_attrs w !! "version") ∧ is_Some (cwd w) ∧
   is_Some (sys_attrs w !! "prefix") ∧ is_Some (globals w !! "__file__")) ∧
  (result main w = inr success_marker ∨ ∃ e, result main w = inl e).
Proof.
  destruct (main_cases w) as
    [[Hv E]|[(v & Hv & Hd & E)|[(v & d & Hv & Hd & Hp & E)|
     [(v & d & p & Hv & Hd & Hp & Hf & E)|
      (v & d & p & f & Hv & Hd & Hp & Hf & E)]]]];
    rewrite (result_emit _ _ _ _ E), ?Hv, ?Hd, ?Hp, ?Hf;
    (split; [split; [try done; intros _; eauto|]|eauto]).
  all: intros (H1 & H2 & H3 & H4);
    by first [destruct H1 | destruct H2 | destruct H3 | destruct H4].
Qed.

(** X2.  A run that raises leaves what it printed before the failing read
    on standard output, and the exception tells which read failed: the
    banner alone before [AttributeError] for [sys.version]; the banner and
    the version line before [OSError] from [os.getcwd()]; three lines before
    [AttributeError] for [sys.prefix]; five lines, ending with the status
    line, before [NameError] for [__file__]. *)
Theorem main_failure_leaves_partial_output w e :
  result main w = inl e →
  (e = AttributeError "sys" "version" ∧ output main w = [startup_banner])
  ∨ (∃ v, e = OSError ∧ sys_attrs w !! "version" = Some v ∧
       output main w = [startup_banner; "Python version: " +:+ v])
  ∨ (∃ v d, e = AttributeError "sys" "prefix" ∧
       sys_attrs w !! "version" = Some v ∧ cwd w = Some d ∧
       output main w = [startup_banner; "Python version: " +:+ v;
                        "Current working directory: " +:+ d])
  ∨ (∃ v d p status, e = NameError "__file__" ∧
       sys_attrs w !! "version" = Some v ∧ cwd w = Some d ∧
       sys_attrs w !! "prefix" = Some p ∧
       (status = venv_line ∨ status = no_venv_line) ∧
       output main w = [startup_banner; "Python version: " +:+ v;
                        "Current working directory: " +:+ d;
                        "Virtual environment: " +:+ p; status]).
Proof.
  destruct (main_cases w) as
    [[Hv E]|[(v & Hv & Hd & E)|[(v & d & Hv & Hd & Hp & E)|
     [(v & d & p & Hv & Hd & Hp & Hf & E)|
      (v & d & p & f & Hv & Hd & Hp & Hf & E)]]]];
    rewrite (result_emit _ _ _ _ E), (output_emit _ _ _ _ E);
    intros [= <-].
  - by left.
  - right; left. by exists v.
  - do 2 right; left. by exists v, d.
  - do 3 right. exists v, d, p, (status_line (venv_flag (sys_attrs w) p)).
    repeat split; try done. destruct (venv_flag _ _); [by left|by right].
Qed.

Lemma main_failure_leaves_partial_output_witness :
  (OSError = AttributeError "sys" "version" ∧
   output main orphaned_world = [startup_banner])
  ∨ (∃ v, OSError = OSError ∧
       sys_attrs orphaned_world !! "version" = Some v ∧
       output main orphaned_world
       = [startup_banner; "Python version: " +:+ v])
  ∨ (∃ v d, OSError = AttributeError "sys" "prefix" ∧
       sys_attrs orphaned_world !! "version" = Some v ∧
       cwd orphaned_world = Some d ∧
       output main orphaned_world
       = [startup_banner; "Python version: " +:+ v;
          "Current working directory: " +:+ d])
  ∨ (∃ v d p status, OSError = NameError "__file__" ∧
       sys_attrs orphaned_world !! "version" = Some v ∧
       cwd orphaned_world = Some d ∧
       sys_attrs orphaned_world !! "prefix" = Some p ∧
       (status = venv_line ∨ status = no_venv_line) ∧
       output main orphaned_world
       = [startup_banner; "Python version: " +:+ v;
          "Current working directory: " +:+ d;
          "Virtual environment: " +:+ p; status]).
Proof.
  apply (main_failure_leaves_partial_output orphaned_world OSError).
  reflexivity.
Defined.

(** X3.  The closing banner is printed exactly when the run succeeds: it is
    among the texts written by [main] if and only if [main] returns the
    success marker. *)
Theorem closing_banner_iff_success w :
  closing_banner ∈ output main w ↔ result main w = inr success_marker.
Proof.
  rewrite elem_of_existsb.
  destruct (main_cases w) as
    [[Hv E]|[(v & Hv & Hd & E)|[(v & d & Hv & Hd & Hp & E)|
     [(v & d & p & Hv & Hd & Hp & Hf & E)|
      (v & d & p & f & Hv & Hd & Hp & Hf & E)]]]];
    rewrite (result_emit _ _ _ _ E), (output_emit _ _ _ _ E);
    try (destruct (venv_flag (sys_attrs w) p)); simpl;
    rewrite ?orb_true_r; done.
Qed.

(** X4.  What [main] prints and how it ends depend only on what it reads:
    [sys.version], [sys.prefix], [sys.base_prefix], whether [sys] has a
    [real_prefix] (not its value), the working directory and [__file__].
    Environment variables, files, network traffic, other attributes and
    globals, and what is already on standard output have no influence. *)
Theorem main_depends_only_on_what_it_reads w1 w2 :
  sys_attrs w1 !! "version" = sys_attrs w2 !! "version" →
  sys_attrs w1 !! "prefix" = sys_attrs w2 !! "prefix" →
  sys_attrs w1 !! "base_prefix" = sys_attrs w2 !! "base_prefix" →
  (is_Some (sys_attrs w1 !! "real_prefix") ↔
   is_Some (sys_attrs w2 !! "real_prefix")) →
  cwd w1 = cwd w2 →
  globals w1 !! "__file__" = globals w2 !! "__file__" →
  output main w1 = output main w2 ∧ result main w1 = result main w2.
Proof.
  intros Hv Hp Hb Hr Hd Hf.
  assert (Hflag : ∀ p, venv_flag (sys_attrs w1) p = venv_flag (sys_attrs w2) p).
  { intros p. unfold venv_flag. rewrite Hb.
    destruct (sys_attrs w1 !! "real_prefix") as [r1|],
             (sys_attrs w2 !! "real_prefix") as [r2|]; try done.
    - destruct Hr as [Hr _]. by destruct Hr; [eauto|].
    - destruct Hr as [_ Hr]. by destruct Hr; [eauto|]. }
  destruct (main_cases w1) as
    [[Hv1 E]|[(v & Hv1 & Hd1 & E)|[(v & d & Hv1 & Hd1 & Hp1 & E)|
     [(v & d & p & Hv1 & Hd1 & Hp1 & Hf1 & E)|
      (v & d & p & f & Hv1 & Hd1 & Hp1 & Hf1 & E)]]]];
    rewrite (result_emit _ _ _ _ E), (output_emit _ _ _ _ E);
    rewrite ?Hv1, ?Hd1, ?Hp1, ?Hf1 in *.
  - run_case (main_no_version w2 (eq_sym Hv)). done.
  - run_case (main_no_cwd w2 v (eq_sym Hv) (eq_sym Hd)). done.
  - run_case (main_no_prefix w2 v d (eq_sym Hv) (eq_sym Hd) (eq_sym Hp)). done.
  - run_case (main_no_file w2 v d p (eq_sym Hv) (eq_sym Hd) (eq_sym Hp)
                (eq_sym Hf)).
    by rewrite Hflag.
  - run_case (main_complete w2 v d p f (eq_sym Hv) (eq_sym Hd) (eq_sym Hp)
                (eq_sym Hf)).
    by rewrite Hflag.
Qed.

Lemma main_depends_only_on_what_it_reads_witness :
  output main legacy_world = output main busy_world ∧
  result main legacy_world = result main busy_world.
Proof.
  apply (main_depends_only_on_what_it_reads legacy_world busy_world);
    try reflexivity.
  split; intros _; eexists; reflexivity.
Defined.

(** ** The module body *)

Lemma script_entry_point w :
  globals w !! "__name__" = Some "__main__" →
  output script w = output main w ∧
  result script w
  = match result main w with inl e => inl e | inr r => inr (Some r) end.
Proof.
  intros Hn.
  assert (E : script w
              = match main w with
                | (w', inl e) => (w', inl e)
                | (w', inr r) => (w', inr (Some r))
                end).
  { unfold script. read_ok global_Some Hn. simpl. by rewrite bind_eq. }
  unfold output, result. rewrite E.
  by destruct (main w) as [w' [e|r]].
Qed.

Lemma script_not_entry_point w :
  globals w !! "__name__" ≠ Some "__main__" →
  output script w = [] ∧ result script w ≠ inr (Some success_marker).
Proof.
  intros Hn. destruct (globals w !! "__name__") as [n|] eqn:En.
  - assert (E : script w = (w, inr None)).
    { unfold script. read_ok global_Some En.
      assert (String.eqb n "__main__" = false) as ->; [|done].
      apply String.eqb_neq. congruence. }
    unfold output, result. rewrite E. simpl. by rewrite drop_all.
  - assert (E : script w = (w, inl (NameError "__name__"))).
    { unfold script. by read_fails global_None En. }
    unfold output, result. rewrite E. simpl. by rewrite drop_all.
Qed.

(** X5.  Executing the file ends with the success marker computed, and
    with the closing banner on standard output, exactly when it runs as
    the entry point ([__name__] is ["__main__"]) and the four facts [main]
    reads are there; loaded under any other name, or with a fact missing,
    neither happens. *)
Theorem script_succeeds_iff_entry_point_with_facts w :
  (result script w = inr (Some success_marker) ↔
   globals w !! "__name__" = Some "__main__" ∧
   is_Some (sys_attrs w !! "version") ∧ is_Some (cwd w) ∧
   is_Some (sys_attrs w !! "prefix") ∧ is_Some (globals w !! "__file__")) ∧
  (closing_banner ∈ output script w ↔
   globals w !! "__name__" = Some "__main__" ∧
   is_Some (sys_attrs w !! "version") ∧ is_Some (cwd w) ∧
   is_Some (sys_attrs w !! "prefix") ∧ is_Some (globals w !! "__file__")).
Proof.
  destruct (decide (globals w !! "__name__" = Some "__main__")) as [Hn|Hn].
  2: { destruct (script_not_entry_point w Hn) as [-> Hr].
       split; (split; [|by intros [? _]]); [done|].
       by intros ?%elem_of_nil. }
  destruct (script_entry_point w Hn) as [-> ->].
  rewrite elem_of_existsb.
  destruct (main_cases w) as
    [[Hv E]|[(v & Hv & Hd & E)|[(v & d & Hv & Hd & Hp & E)|
     [(v & d & p & Hv & Hd & Hp & Hf & E)|
      (v & d & p & f & Hv & Hd & Hp & Hf & E)]]]];
    rewrite (result_emit _ _ _ _ E), (output_emit _ _ _ _ E),
      ?Hv, ?Hd, ?Hp, ?Hf;
    try (destruct (venv_flag (sys_attrs w) p)); simpl; rewrite ?orb_true_r;
    (split; (split; [try done; intros _; eauto 10|])).
  all: intros (_ & H1 & H2 & H3 & H4);
    by first [destruct H1 | destruct H2 | destruct H3 | destruct H4].
Qed.

(** X6.  The guarded call that ends the file (lines 28 and 29), whether
    the guard holds or not and whether [main] returns or raises, changes
    nothing but standard output: files, network traffic, working
    directory, environment variables, the attributes of [sys] and the
    globals that the statements before it have bound stay as it found
    them. *)
Theorem script_purely_observational w :
  files (script w).1 = files w ∧
  sent (script w).1 = sent w ∧
  cwd (script w).1 = cwd w ∧
  environ (script w).1 = environ w ∧
  sys_attrs (script w).1 = sys_attrs w ∧
  globals (script w).1 = globals w ∧
  stdout (script w).1 = stdout w ++ output script w.
Proof.
  pose proof (observational_frame script w observational_script) as H.
  tauto.
Qed.

(** X7.  The working-directory line reports the working directory of the
    process as [os.getcwd()] gave it: it is the third text of every run
    that gets past the version, whatever happens later, and two runs print
    the same line only for the same directory. *)
Theorem cwd_line_matches_cwd w v d :
  sys_attrs w !! "version" = Some v →
  cwd w = Some d →
  output main w !! 2 = Some ("Current working directory: " +:+ d) ∧
  (∀ w' v' d',
     sys_attrs w' !! "version" = Some v' → cwd w' = Some d' →
     output main w' !! 2 = output main w !! 2 → d' = d).
Proof.
  assert (Hline : ∀ w v d,
            sys_attrs w !! "version" = Some v → cwd w = Some d →
            output main w !! 2 = Some ("Current working directory: " +:+ d)).
  { clear. intros w v d Hv Hd.
    destruct (main_cases w) as
      [[Hv1 E]|[(v1 & Hv1 & Hd1 & E)|[(v1 & d1 & Hv1 & Hd1 & Hp1 & E)|
       [(v1 & d1 & p & Hv1 & Hd1 & Hp1 & Hf1 & E)|
        (v1 & d1 & p & f & Hv1 & Hd1 & Hp1 & Hf1 & E)]]]];
      rewrite (output_emit _ _ _ _ E); simpl; congruence. }
  intros Hv Hd. split; [by eapply Hline|].
  intros w' v' d' Hv' Hd'.
  rewrite (Hline w v d), (Hline w' v' d') by done.
  intros [= H]. done.
Qed.

Lemma cwd_line_matches_cwd_witness :
  output main scenario_world !! 2
  = Some ("Current working directory: " +:+ "/home/user/project") ∧
  (∀ w' v' d',
     sys_attrs w' !! "version" = Some v' → cwd w' = Some d' →
     output main w' !! 2 = output main scenario_world !! 2 →
     d' = "/home/user/project").
Proof.
  apply (cwd_line_matches_cwd scenario_world
           "3.12.3 (main, Feb  4 2025, 14:48:35) [GCC 13.3.0]");
    reflexivity.
Defined.

(** ** Splitting and the parts of a path *)

Lemma str_split_nonempty c s : str_split c s ≠ [].
Proof.
  destruct s as [|a s]; simpl; [done|].
  destruct (Ascii.eqb a c); [done|]. by destruct (str_split c s).
Qed.

Lemma str_split_whole c s : has_char c s = false → str_split c s = [s].
Proof.
  induction s as [|a s IH]; simpl; [done|]. intros H.
  apply orb_false_iff in H as [Ha Hs]. by rewrite Ha, (IH Hs).
Qed.

Lemma str_split_at_sep c a b :
  str_split c (a +:+ String c b) = str_split c a ++ str_split c b.
Proof.
  induction a as [|x a IH]; simpl.
  - by rewrite Ascii.eqb_refl.
  - destruct (Ascii.eqb x c); [by rewrite IH|].
    rewrite IH. pose proof (str_split_nonempty c a).
    by destruct (str_split c a).
Qed.

Lemma has_char_append c a b :
  has_char c (a +:+ b) = has_char c a || has_char c b.
Proof.
  induction a as [|x a IH]; simpl; [done|]. by rewrite IH, orb_assoc.
Qed.

Lemma str_split_pieces c n s :
  has_char n s = false →
  Forall (λ x, has_char n x = false) (str_split c s).
Proof.
  induction s as [|a s IH]; simpl; intros H.
  - by repeat constructor.
  - apply orb_false_iff in H as [Ha Hs]. specialize (IH Hs).
    destruct (Ascii.eqb a c); [by constructor|].
    destruct (str_split c s) as [|x xs].
    + repeat constructor. simpl. by rewrite Ha.
    + inversion IH; subst. constructor; [|done]. simpl. by rewrite Ha.
Qed.

Lemma lstrip_append a b :
  pathlib.lstrip a ≠ "" →
  pathlib.lstrip (a +:+ b) = pathlib.lstrip a +:+ b.
Proof.
  induction a as [|x a IH]; simpl; [done|].
  destruct (Ascii.eqb x pathlib.sep); [done|]. reflexivity.
Qed.

Lemma lstrip_length s : String.length (pathlib.lstrip s) ≤ String.length s.
Proof.
  induction s as [|x s IH]; simpl; [lia|].
  destruct (Ascii.eqb x pathlib.sep); simpl; lia.
Qed.

Lemma length_append a b :
  String.length (a +:+ b) = String.length a + String.length b.
Proof. induction a as [|x a IH]; simpl; [done|]. by rewrite IH. Qed.

Lemma splitroot_append a b :
  pathlib.lstrip a ≠ "" →
  pathlib.splitroot (a +:+ b)
  = ((pathlib.splitroot a).1, (pathlib.splitroot a).2 +:+ b).
Proof.
  intros Ha. destruct a as [|x a]; [done|].
  change (String x a +:+ b) with (String x (a +:+ b)).
  unfold pathlib.splitroot.
  destruct (Ascii.eqb x pathlib.sep) eqn:Hx; [|reflexivity].
  change (String x (a +:+ b)) with (String x a +:+ b).
  rewrite (lstrip_append _ b Ha), !length_append.
  pose proof (lstrip_length (String x a)).
  replace (String.length (String x a) + String.length b
           - (String.length (pathlib.lstrip (String x a)) + String.length b))
    with (String.length (String x a)
          - String.length (pathlib.lstrip (String x a))) by lia.
  by destruct (_ =? 2)%nat.
Qed.

(** The path of a file [name] in the directory [dir] has the path of [dir]
    as its parent. *)
Lemma parent_of_file_in_directory dir name :
  pathlib.lstrip dir ≠ "" →
  has_char pathlib.sep name = false →
  pathlib.keep name = true →
  pathlib.parent (pathlib.Path (dir +:+ "/" +:+ name)) = pathlib.Path dir.
Proof.
  intros Hdir Hname Hkeep. unfold pathlib.Path.
  rewrite (splitroot_append dir _ Hdir).
  destruct (pathlib.splitroot dir) as [r rel]; simpl.
  change ("/" +:+ name) with (String pathlib.sep name).
  rewrite str_split_at_sep, filter_app, (str_split_whole _ _ Hname).
  rewrite filter_cons_True, filter_nil by done.
  unfold pathlib.parent; simpl.
  rewrite removelast_last.
  by destruct (filter _ (str_split pathlib.sep rel)).
Qed.

(** A path without a separator has the current directory as its parent. *)
Lemma parent_of_bare_name f :
  has_char pathlib.sep f = false →
  pathlib.str (pathlib.parent (pathlib.Path f)) = ".".
Proof.
  intros Hf. unfold pathlib.Path.
  assert (pathlib.splitroot f = ("", f)) as ->.
  { destruct f as [|x f]; [done|]. simpl in *.
    apply orb_false_iff in Hf as [-> _]. done. }
  rewrite (str_split_whole _ _ Hf).
  destruct (decide (pathlib.keep f = true)).
  - by rewrite filter_cons_True.
  - by rewrite filter_cons_False.
Qed.

(** X8.  When [__file__] holds no directory part (no [/] at all, as for a
    script started by its bare name), the project-root line is
    ["Project root: ."], whatever the working directory is. *)
Theorem bare_script_name_gives_dot w v d p f :
  sys_attrs w !! "version" = Some v →
  cwd w = Some d →
  sys_attrs w !! "prefix" = Some p →
  globals w !! "__file__" = Some f →
  has_char "/" f = false →
  output main w !! 5 = Some "Project root: .".
Proof.
  intros Hv Hd Hp Hf Hbare.
  rewrite (main_output w v d p f) by done. simpl.
  by rewrite (parent_of_bare_name f Hbare).
Qed.

Lemma bare_script_name_gives_dot_witness :
  output main relative_world !! 5 = Some "Project root: .".
Proof.
  apply (bare_script_name_gives_dot relative_world
           "3.12.3 (main, Feb  4 2025, 14:48:35) [GCC 13.3.0]"
           "/home/user/project" "/home/user/project/.venv" "app.py");
    reflexivity.
Defined.

(** X9.  When [__file__] is [dir/name], with [name] a file name (no [/],
    not empty, not [.]) and [dir] more than a run of slashes, the
    project-root line shows [dir] in the normal form of [pathlib]: the text
    of [Path(dir)]. *)
Theorem project_root_is_directory_of_script w v d p dir name :
  sys_attrs w !! "version" = Some v →
  cwd w = Some d →
  sys_attrs w !! "prefix" = Some p →
  globals w !! "__file__" = Some (dir +:+ "/" +:+ name) →
  pathlib.lstrip dir ≠ "" →
  has_char "/" name = false →
  pathlib.keep name = true →
  output main w !! 5
  = Some ("Project root: " +:+ pathlib.str (pathlib.Path dir)).
Proof.
  intros Hv Hd Hp Hf Hdir Hname Hkeep.
  rewrite (main_output w v d p _ Hv Hd Hp Hf). simpl.
  by rewrite (parent_of_file_in_directory dir name).
Qed.

Lemma project_root_is_directory_of_script_witness :
  output main scenario_world !! 5
  = Some ("Project root: "
          +:+ pathlib.str (pathlib.Path "/home/user/project")).
Proof.
  apply (project_root_is_directory_of_script scenario_world
           "3.12.3 (main, Feb  4 2025, 14:48:35) [GCC 13.3.0]"
           "/home/user/project" "/home/user/project/.venv"
           "/home/user/project" "app.py");
    try reflexivity.
  discriminate.
Defined.

(** ** Characters that never enter a path text *)

Lemma has_char_lstrip n s :
  has_char n s = false → has_char n (pathlib.lstrip s) = false.
Proof.
  induction s as [|x s IH]; simpl; [done|]. intros H.
  destruct (Ascii.eqb x pathlib.sep); [|done].
  apply orb_false_iff in H as [_ Hs]. by apply IH.
Qed.

Lemma Forall_removelast {A : Type} (P : A → Prop) (l : list A) :
  Forall P l → Forall P (removelast l).
Proof.
  induction 1 as [|x l Hx Hl IH]; simpl; [constructor|].
  destruct l; [constructor|]. by constructor.
Qed.

Lemma Forall_kept (P : string → Prop) (l : list string) :
  Forall P l → Forall P (filter (λ x, pathlib.keep x = true) l).
Proof.
  induction 1 as [|x l Hx Hl IH]; [constructor|].
  rewrite filter_cons. case_decide; [by constructor|done].
Qed.

Lemma has_char_concat n (sep : string) (t : list string) :
  has_char n sep = false →
  Forall (λ x, has_char n x = false) t →
  has_char n (String.concat sep t) = false.
Proof.
  intros Hsep. induction 1 as [|x t Hx Ht IH]; simpl; [done|].
  destruct t as [|y t]; [done|].
  by rewrite !has_char_append, Hx, Hsep, IH.
Qed.

Lemma splitroot_chars n f :
  Ascii.eqb "/" n = false →
  has_char n f = false →
  has_char n (pathlib.splitroot f).1 = false ∧
  has_char n (pathlib.splitroot f).2 = false.
Proof.
  intros Hsep Hf. unfold pathlib.splitroot.
  destruct f as [|x f]; [by split|].
  destruct (Ascii.eqb x pathlib.sep); [|by split].
  destruct (_ =? 2)%nat; cbn [fst snd]; (split; [|by apply has_char_lstrip]);
    cbn [has_char]; by rewrite Hsep.
Qed.

(** A character other than the separator that is not in [f] is not in the
    text of the parent of [Path(f)]. *)
Lemma has_char_parent_text n f :
  Ascii.eqb "/" n = false →
  Ascii.eqb "." n = false →
  has_char n f = false →
  has_char n (pathlib.str (pathlib.parent (pathlib.Path f))) = false.
Proof.
  intros Hsep Hdot Hf.
  assert (Hroot : has_char n (pathlib.root (pathlib.Path f)) = false ∧
                  Forall (λ x, has_char n x = false)
                    (pathlib.tail (pathlib.Path f))).
  { unfold pathlib.Path.
    destruct (splitroot_chars n f Hsep Hf) as [Hr Hrel].
    destruct (pathlib.splitroot f) as [r rel]. cbn [fst snd] in *.
    cbn [pathlib.root pathlib.tail]. split; [done|].
    by apply Forall_kept, str_split_pieces. }
  destruct Hroot as [Hr Ht].
  assert (Hp : has_char n (pathlib.root (pathlib.parent (pathlib.Path f)))
               = false ∧
               Forall (λ x, has_char n x = false)
                 (pathlib.tail (pathlib.parent (pathlib.Path f)))).
  { unfold pathlib.parent. destruct (pathlib.tail (pathlib.Path f)) eqn:E.
    - split; [done|]. by rewrite E.
    - cbn [pathlib.root pathlib.tail]. split; [done|].
      by apply Forall_removelast. }
  destruct Hp as [Hr' Ht']. clear Hr Ht.
  destruct (pathlib.parent (pathlib.Path f)) as [r t].
  unfold pathlib.str. cbn [pathlib.root pathlib.tail] in *.
  assert (Hc : has_char n (String.concat "/" t) = false).
  { apply has_char_concat; [|done]. cbn [has_char]. by rewrite Hsep. }
  destruct r as [|c r].
  - destruct t as [|y t]; [|done]. cbn [has_char]. by rewrite Hdot.
  - by rewrite has_char_append, Hr', Hc.
Qed.

(** X10.  When the version, the working directory, the prefix and the
    script path hold no newline, the bytes a complete run writes to
    standard output split at the newlines into exactly the seven texts it
    printed (and the empty piece after the last newline): a reader of the
    stream sees seven lines. *)
Theorem complete_run_text_lines w v d p f :
  sys_attrs w !! "version" = Some v →
  cwd w = Some d →
  sys_attrs w !! "prefix" = Some p →
  globals w !! "__file__" = Some f →
  has_char (ascii_of_nat 10) v = false →
  has_char (ascii_of_nat 10) d = false →
  has_char (ascii_of_nat 10) p = false →
  has_char (ascii_of_nat 10) f = false →
  text_lines (stdout_bytes (output main w)) = output main w ++ [""] ∧
  length (text_lines (stdout_bytes (output main w))) = 8.
Proof.
  intros Hv Hd Hp Hf Nv Nd Np Nf.
  assert (Hpar := has_char_parent_text (ascii_of_nat 10) f eq_refl eq_refl Nf).
  assert (E : text_lines (stdout_bytes (output main w))
              = output main w ++ [""]).
  { apply text_lines_stdout_bytes.
    rewrite (main_output w v d p f) by done.
    repeat constructor; rewrite ?has_char_append, ?Nv, ?Nd, ?Np, ?Hpar;
      try reflexivity.
    by destruct (venv_flag _ _). }
  split; [done|]. rewrite E, (main_output w v d p f) by done. reflexivity.
Qed.

Lemma complete_run_text_lines_witness :
  text_lines (stdout_bytes (output main scenario_world))
  = output main scenario_world ++ [""] ∧
  length (text_lines (stdout_bytes (output main scenario_world))) = 8.
Proof.
  apply (complete_run_text_lines scenario_world
           "3.12.3 (main, Feb  4 2025, 14:48:35) [GCC 13.3.0]"
           "/home/user/project" "/home/user/project/.venv"
           "/home/user/project/app.py");
    reflexivity.
Defined.

(** X11.  When [__file__] is [/name], a file directly under the root
    directory, the project-root line is ["Project root: /"]. *)
Theorem script_under_root_gives_root w v d p name :
  sys_attrs w !! "version" = Some v →
  cwd w = Some d →
  sys_attrs w !! "prefix" = Some p →
  globals w !! "__file__" = Some ("/" +:+ name) →
  has_char "/" name = false →
  pathlib.keep name = true →
  output main w !! 5 = Some "Project root: /".
Proof.
  intros Hv Hd Hp Hf Hname Hkeep.
  rewrite (main_output w v d p _ Hv Hd Hp Hf).
  change (report v d p (venv_flag (sys_attrs w) p) ("/" +:+ name) !! 5)
    with (Some ("Project root: "
                +:+ pathlib.str (pathlib.parent
                      (pathlib.Path ("/" +:+ name))))).
  assert (pathlib.Path ("/" +:+ name)
          = {| pathlib.root := "/"; pathlib.tail := [name] |}) as ->.
  { destruct name as [|x name]; [done|].
    pose proof Hname as Hx. cbn [has_char] in Hx.
    apply orb_false_iff in Hx as [Hx _].
    unfold pathlib.Path, pathlib.splitroot.
    change ("/" +:+ String x name) with (String "/" (String x name)).
    cbn [Ascii.eqb pathlib.sep Bool.eqb].
    change (pathlib.lstrip (String "/" (String x name)))
      with (pathlib.lstrip (String x name)).
    cbn [pathlib.lstrip]. change "/"%char with pathlib.sep in Hx.
    rewrite Hx. cbn [String.length].
    replace (S (S (String.length name)) - S (String.length name)) with 1
      by lia.
    cbn [Nat.eqb]. rewrite (str_split_whole pathlib.sep _ Hname).
    by rewrite filter_cons_True. }
  reflexivity.
Qed.

Lemma script_under_root_gives_root_witness :
  output main
    {| sys_attrs := sys_attrs scenario_world;
       globals := <["__file__" := "/" +:+ "app.py"]> (globals scenario_world);
       cwd := Some "/";
       environ := ∅; files := ∅; sent := []; stdout := [] |} !! 5
  = Some "Project root: /".
Proof.
  apply (script_under_root_gives_root _
           "3.12.3 (main, Feb  4 2025, 14:48:35) [GCC 13.3.0]"
           "/" "/home/user/project/.venv" "app.py");
    reflexivity.
Defined.
